(** * The MCP tool server of the political document manager

    A shallow embedding of [llama_political_manager/mcp_server.py]:
    the [MCPServer] registry (tools, resources, running/host/port state),
    the credential gate of [PoliticalDocumentMCPServer], and the two pure
    default tools [analyze_political_content] and [query_database].

    Modelling conventions.
    - A Python [str] is a Rocq [string]; its characters are the code points
      below 256.  [str.lower] is Python's lower-casing on that range.
    - A Python [int] is a [Z].
    - A Python [dict] with string keys is an association list kept in
      insertion order ([PyDict]); assignment to an existing key replaces the
      value in place, assignment to a new key appends.
    - Methods that mutate the object, print, call a handler or raise live in
      the monad [Py]: a state transformer over the server object, the
      environment the handlers act on and the standard output, returning
      either a value or the raised exception.  A raised exception does not
      roll the state back.
    - A handler is an arbitrary callable: given the keyword arguments it is
      a computation in [Py] like any method, so it may read and change the
      server object, the environment [W] (files, counters, collaborators)
      and the output, and it returns a value or raises.  The tools
      dictionary holds references to function objects; the objects
      themselves are given by a table [code], one per program.
    - [async def] methods are run to completion by their caller ([await]);
      interleaving of several callers is not modelled. *)

From Stdlib Require Import String Ascii List ZArith NArith Bool Lia DecimalString.
Import ListNotations.

Local Set Warnings "-register-all".
Local Open Scope string_scope.
Local Open Scope Z_scope.

(* ================================================================= *)
(** ** Python strings *)

Module PyStr.

(** [c.lower()] for one code point below 256: the ASCII capitals and the
    Latin-1 capitals U+00C0..U+00DE, the multiplication sign U+00D7 apart,
    move up by 32; every other character is its own lower case. *)
Definition lower_char (c : ascii) : ascii :=
  let n := N_of_ascii c in
  if ((65 <=? n) && (n <=? 90)
      || (192 <=? n) && (n <=? 222) && negb (n =? 215))%N
  then ascii_of_N (n + 32)
  else c.

(** [s.lower()] *)
Fixpoint lower (s : string) : string :=
  match s with
  | EmptyString => EmptyString
  | String c s' => String (lower_char c) (lower s')
  end.

(** [sub in s]: [sub] occurs in [s] as a contiguous substring. *)
Fixpoint contains (sub s : string) : bool :=
  String.prefix sub s
  || match s with
     | EmptyString => false
     | String _ s' => contains sub s'
     end.

(** [str(n)] for an [int]. *)
Definition of_int (n : Z) : string := NilZero.string_of_int (Z.to_int n).

End PyStr.

(* ================================================================= *)
(** ** Python dictionaries with string keys *)

Module PyDict.

Definition dict (V : Type) : Type := list (string * V).

Section Ops.
Context {V : Type}.

(** [d.get(k)] *)
Fixpoint get (k : string) (d : dict V) : option V :=
  match d with
  | [] => None
  | (k', v) :: d' => if String.eqb k k' then Some v else get k d'
  end.

(** [k in d] *)
Definition mem (k : string) (d : dict V) : bool :=
  match get k d with Some _ => true | None => false end.

(** [d[k] = v] *)
Fixpoint set (k : string) (v : V) (d : dict V) : dict V :=
  match d with
  | [] => [(k, v)]
  | (k', v') :: d' =>
      if String.eqb k k' then (k', v) :: d' else (k', v') :: set k v d'
  end.

Definition keys (d : dict V) : list string := map fst d.
Definition values (d : dict V) : list V := map snd d.
Definition items (d : dict V) : list (string * V) := d.

(** The representation invariant: a dictionary holds each key once. *)
Definition wf (d : dict V) : Prop := NoDup (keys d).

End Ops.

End PyDict.

Import PyDict.

(* ================================================================= *)
(** ** Values, exceptions and results *)

(** The values that travel as [Any]: tool arguments, tool results, resource
    contents, client handles.  A float keeps the literal it was written
    with. *)
Inductive value : Type :=
| VNone
| VBool (b : bool)
| VInt (n : Z)
| VFloat (literal : string)
| VStr (s : string)
| VList (l : list value)
| VDict (d : list (string * value)).

(** An exception object: its class, its message and its [__cause__]. *)
Inductive exception : Type :=
| Exception (cls : string) (msg : string) (cause : option exception).

Definition exc_class (e : exception) : string :=
  match e with Exception c _ _ => c end.
Definition exc_msg (e : exception) : string :=
  match e with Exception _ m _ => m end.
Definition exc_cause (e : exception) : option exception :=
  match e with Exception _ _ c => c end.

Definition ValueError (msg : string) : exception := Exception "ValueError" msg None.
Definition PermissionError (msg : string) : exception := Exception "PermissionError" msg None.
Definition KeyError (key : string) : exception := Exception "KeyError" key None.

(** [outer] wraps [inner]: [inner] is the cause recorded in [outer]. *)
Definition wraps (outer inner : exception) : Prop := exc_cause outer = Some inner.

(** The outcome of a call: a returned value or a raised exception. *)
Inductive result (A : Type) : Type :=
| Return (a : A)
| Raise (e : exception).
Arguments Return {A} a.
Arguments Raise {A} e.

(** The error kinds of the specification, as the exceptions the code
    raises for them. *)
Definition ToolNotFound (tool_name : string) : exception :=
  ValueError ("Tool " ++ tool_name ++ " not found").
Definition PermissionDenied : exception :=
  PermissionError "Invalid API key or insufficient permissions".
Definition UnsupportedDatabaseType (database_type : string) : exception :=
  ValueError ("Unsupported database type: " ++ database_type).
Definition is_ToolExecutionError (e original : exception) : Prop :=
  exc_class e = "ToolExecutionError" /\ wraps e original.

(* ================================================================= *)
(** ** The server object *)

Section Server.

(** The environment of the program: what its callables keep outside the
    server object (counters, files, collaborators). *)
Context {W : Type}.

(** The references to the callables of the program.  An entry of
    [self.tools] holds a reference to a function object, not the function
    itself. *)
Context {Fn : Type}.

(** [**arguments]: the keyword arguments of a call. *)
Definition Args : Type := dict value.

(** An entry of [self.tools]. *)
Record Tool : Type := mkTool {
  name : string;
  description : string;
  handler : Fn
}.

(** An entry of the list [list_tools] returns. *)
Record ToolInfo : Type := mkToolInfo {
  info_name : string;
  info_description : string
}.

(** The fields [MCPServer.__init__] creates. *)
Record MCPServer : Type := mkServer {
  tools : dict Tool;
  resources : dict value;
  is_running : bool;
  clients : list value;
  host : string;
  port : Z
}.

Definition set_tools (t : dict Tool) (s : MCPServer) : MCPServer :=
  mkServer t (resources s) (is_running s) (clients s) (host s) (port s).
Definition set_resources (r : dict value) (s : MCPServer) : MCPServer :=
  mkServer (tools s) r (is_running s) (clients s) (host s) (port s).
Definition set_is_running (b : bool) (s : MCPServer) : MCPServer :=
  mkServer (tools s) (resources s) b (clients s) (host s) (port s).
Definition set_clients (c : list value) (s : MCPServer) : MCPServer :=
  mkServer (tools s) (resources s) (is_running s) c (host s) (port s).
Definition set_host (h : string) (s : MCPServer) : MCPServer :=
  mkServer (tools s) (resources s) (is_running s) (clients s) h (port s).
Definition set_port (p : Z) (s : MCPServer) : MCPServer :=
  mkServer (tools s) (resources s) (is_running s) (clients s) (host s) p.

(** *** The monad of methods *)

Record Store : Type := mkStore {
  self : MCPServer;
  env : W;
  stdout : list string
}.

Definition Py (A : Type) : Type := Store -> result A * Store.

Definition ret {A} (a : A) : Py A := fun st => (Return a, st).

Definition bind {A B} (m : Py A) (k : A -> Py B) : Py B :=
  fun st =>
    match m st with
    | (Return a, st') => k a st'
    | (Raise e, st') => (Raise e, st')
    end.

Definition raise {A} (e : exception) : Py A := fun st => (Raise e, st).

Definition get_self : Py MCPServer := fun st => (Return (self st), st).

Definition update_self (f : MCPServer -> MCPServer) : Py unit :=
  fun st => (Return tt, mkStore (f (self st)) (env st) (stdout st)).

(** [print(line)] *)
Definition print (line : string) : Py unit :=
  fun st => (Return tt, mkStore (self st) (env st) (stdout st ++ [line])).

(** *** Callables *)

(** A function object.  Its body is a computation like any method: given
    the keyword arguments it may read and change the server object (a
    closure over [self], or any code that holds the server), the
    environment and the output, and it returns a value or raises.
    [asyncio.iscoroutinefunction] tells the two kinds apart: a plain
    function runs when called, a coroutine function runs when the
    coroutine it returns is awaited. *)
Inductive Handler : Type :=
| Function (body : Args -> Py value)
| CoroutineFunction (body : Args -> Py value).

Definition body_of (h : Handler) : Args -> Py value :=
  match h with Function b => b | CoroutineFunction b => b end.

(** The function objects of the program: the object behind each
    reference. *)
Variable code : Fn -> Handler.

(** [asyncio.iscoroutinefunction(handler)] *)
Definition iscoroutinefunction (handler : Fn) : bool :=
  match code handler with Function _ => false | CoroutineFunction _ => true end.

(** The call of a handler on the unpacked keyword arguments: the body of
    the function object runs on the whole store. *)
Definition call (handler : Fn) (arguments : Args) : Py value :=
  body_of (code handler) arguments.

(** [await c]: the awaited coroutine runs to completion. *)
Definition await {A} (c : Py A) : Py A := c.

(** [d[k]] as an expression: [KeyError] when the key is absent. *)
Definition getitem {V} (k : string) (d : dict V) : Py V :=
  match PyDict.get k d with
  | Some v => ret v
  | None => raise (KeyError k)
  end.

End Server.

Arguments Tool Fn : clear implicits.
Arguments MCPServer Fn : clear implicits.
Arguments Store W Fn : clear implicits.
Arguments Py W Fn A : clear implicits.
Arguments Handler W Fn : clear implicits.

Declare Scope py_scope.
Delimit Scope py_scope with py.
Notation "x <- m ;; k" := (bind m (fun x => k))
  (at level 61, m at next level, right associativity) : py_scope.
Notation "m ;; k" := (bind m (fun _ => k))
  (at level 61, right associativity) : py_scope.
Local Open Scope py_scope.

Section Methods.

Context {W Fn : Type}.

(** The function objects of the program. *)
Variable code : Fn -> Handler W Fn.

(** [MCPServer.__init__] *)
Definition init : MCPServer Fn :=
  {| tools := [];
     resources := [];
     is_running := false;
     clients := [];
     host := "localhost";
     port := 8080 |}.

(** [MCPServer.start] *)
Definition start (host : string) (port : Z) : Py W Fn unit :=
  update_self (set_is_running true) ;;
  update_self (set_host host) ;;
  update_self (set_port port) ;;
  print ("MCP Server started on " ++ host ++ ":" ++ PyStr.of_int port).

(** [MCPServer.stop] *)
Definition stop : Py W Fn unit :=
  update_self (set_is_running false) ;;
  update_self (set_clients []) ;;
  print "MCP Server stopped".

(** [MCPServer.register_tool] *)
Definition register_tool (name description : string) (handler : Fn)
  : Py W Fn unit :=
  update_self (fun s =>
    set_tools (PyDict.set name (mkTool name description handler) (tools s)) s).

(** [MCPServer.register_resource] *)
Definition register_resource (uri : string) (content : value) : Py W Fn unit :=
  update_self (fun s => set_resources (PyDict.set uri content (resources s)) s).

(** [MCPServer.handle_tool_call] *)
Definition handle_tool_call (tool_name : string) (arguments : Args)
  : Py W Fn value :=
  s <- get_self ;;
  if negb (PyDict.mem tool_name (tools s)) then
    raise (ValueError ("Tool " ++ tool_name ++ " not found"))
  else
    tool <- getitem tool_name (tools s) ;;
    let handler := handler tool in
    if iscoroutinefunction code handler then
      await (call code handler arguments)
    else
      call code handler arguments.

(** [MCPServer.list_tools] *)
Definition list_tools (s : MCPServer Fn) : list ToolInfo :=
  map (fun tool => mkToolInfo (name tool) (description tool))
      (PyDict.values (tools s)).

(** [MCPServer.list_resources] *)
Definition list_resources (s : MCPServer Fn) : list string :=
  PyDict.keys (resources s).

(** The local list [valid_keys] of [validate_tool_access]. *)
Definition valid_keys : list string :=
  ["valid-api-key"; "admin-key"; "service-key"].

(** Truth value of an [Optional[str]]: [None] and the empty string are
    false. *)
Definition truthy (o : option string) : bool :=
  match o with
  | None => false
  | Some "" => false
  | Some _ => true
  end.

(** [PoliticalDocumentMCPServer.validate_tool_access].  The method reads
    no field of the object. *)
Definition validate_tool_access (tool_name : string) (api_key : option string)
  : bool :=
  if negb (truthy api_key) then false
  else
    match api_key with
    | Some k => existsb (String.eqb k) valid_keys
    | None => false
    end.

(** [PoliticalDocumentMCPServer.handle_secure_tool_call].  The method uses
    only what the class inherits from [MCPServer]. *)
Definition handle_secure_tool_call (tool_name : string) (arguments : Args)
    (api_key : option string) : Py W Fn value :=
  if negb (validate_tool_access tool_name api_key) then
    raise (PermissionError "Invalid API key or insufficient permissions")
  else
    await (handle_tool_call tool_name arguments).

End Methods.

Arguments init {Fn}.
Arguments list_tools {Fn} s.
Arguments list_resources {Fn} s.

(* ================================================================= *)
(** ** Sessions *)

(** What a client can ask of the server object. *)
Inductive request (Fn : Type) : Type :=
| Start (host : string) (port : Z)
| Stop
| RegisterTool (name description : string) (handler : Fn)
| RegisterResource (uri : string) (content : value)
| HandleToolCall (tool_name : string) (arguments : Args)
| HandleSecureToolCall (tool_name : string) (arguments : Args)
                       (api_key : option string).
Arguments Start {Fn} host port.
Arguments Stop {Fn}.
Arguments RegisterTool {Fn} name description handler.
Arguments RegisterResource {Fn} uri content.
Arguments HandleToolCall {Fn} tool_name arguments.
Arguments HandleSecureToolCall {Fn} tool_name arguments api_key.

(** The store after a request; the client catches what the request
    raises. *)
Definition serve {W Fn} (code : Fn -> Handler W Fn) (r : request Fn)
    (st : Store W Fn) : Store W Fn :=
  match r with
  | Start h p => snd (start h p st)
  | Stop => snd (stop st)
  | RegisterTool n d h => snd (register_tool n d h st)
  | RegisterResource u c => snd (register_resource u c st)
  | HandleToolCall n a => snd (handle_tool_call code n a st)
  | HandleSecureToolCall n a k => snd (handle_secure_tool_call code n a k st)
  end.

(** The store after a sequence of requests. *)
Definition session {W Fn} (code : Fn -> Handler W Fn) (rs : list (request Fn))
    (st : Store W Fn) : Store W Fn :=
  fold_left (fun st r => serve code r st) rs st.

(* ================================================================= *)
(** ** The default tools *)

(** [sum(xs)] over integers. *)
Definition py_sum (xs : list Z) : Z := fold_left Z.add xs 0.

(** The entry [analysis[area]]. *)
Record AreaAnalysis : Type := mkArea {
  mentions : Z;
  relevance : string
}.

(** The dictionary [analyze_political_content] returns. *)
Record AnalysisReport : Type := mkReport {
  analysis : dict AreaAnalysis;
  total_policy_mentions : Z;
  primary_topics : list string
}.

(** The local table [policy_areas] of [analyze_political_content]. *)
Definition policy_areas : dict (list string) :=
  [ ("healthcare", ["healthcare"; "health"; "medical"; "insurance"]);
    ("economy", ["economic"; "economy"; "financial"; "budget"; "tax"]);
    ("environment", ["environmental"; "climate"; "green"; "pollution"]);
    ("education", ["education"; "school"; "university"; "student"]) ].

(** [analyze_political_content(text)] *)
Definition analyze_political_content (text : string) : AnalysisReport :=
  let text_lower := PyStr.lower text in
  let analysis :=
    fold_left
      (fun analysis '(area, keywords) =>
         let mentions :=
           py_sum (map (fun _ => 1)
                       (filter (fun kw => PyStr.contains kw text_lower) keywords)) in
         PyDict.set area
           {| mentions := mentions;
              relevance := if mentions >? 2 then "high"
                           else if mentions >? 0 then "medium"
                           else "low" |}
           analysis)
      (PyDict.items policy_areas) [] in
  {| analysis := analysis;
     total_policy_mentions := py_sum (map mentions (PyDict.values analysis));
     primary_topics :=
       map fst (filter (fun '(area, data) => String.eqb (relevance data) "high")
                       (PyDict.items analysis)) |}.

(** The dictionary [query_database] returns. *)
Record QueryResult : Type := mkQueryResult {
  query : string;
  results : list value;
  count : Z;
  database_type : string
}.

(** [query_database(query, database_type)].  A call that leaves
    [database_type] out passes ["sql"]. *)
Definition query_database (query : string) (database_type : string)
  : result QueryResult :=
  if String.eqb database_type "sql" then
    Return
      {| query := query;
         results :=
           [ VDict [("id", VInt 1); ("title", VStr "Document 1");
                    ("category", VStr "political")];
             VDict [("id", VInt 2); ("title", VStr "Document 2");
                    ("category", VStr "technical")] ];
         count := 2;
         database_type := "sql" |}
  else if String.eqb database_type "neo4j" then
    Return
      {| query := query;
         results :=
           [ VDict [("node", VDict [("id", VInt 1); ("type", VStr "Document");
                                    ("title", VStr "Doc 1")])];
             VDict [("relationship", VDict [("type", VStr "RELATED_TO");
                                            ("weight", VFloat "0.8")])] ];
         count := 2;
         database_type := "neo4j" |}
  else
    Raise (ValueError ("Unsupported database type: " ++ database_type)).

(* ================================================================= *)
(** ** Vocabulary of the statements *)

(** The server keeps each tool under its own name, once. *)
Definition tools_wf {Fn} (s : MCPServer Fn) : Prop :=
  PyDict.wf (tools s) /\
  Forall (fun kv => name (snd kv) = fst kv) (tools s).

(** Running a method from a store. *)
Definition run {W Fn A} (m : Py W Fn A) (st : Store W Fn)
  : result A * Store W Fn := m st.

(** The store a method leaves behind, whatever its outcome. *)
Definition exec {W Fn A} (m : Py W Fn A) (st : Store W Fn) : Store W Fn :=
  snd (m st).

(** The method returned normally. *)
Definition returns {W Fn A} (m : Py W Fn A) (st : Store W Fn) : Prop :=
  exists a, fst (m st) = Return a.

(** No handler of the program breaks the invariant of the tools
    dictionary. *)
Definition handlers_keep_wf {W Fn} (code : Fn -> Handler W Fn) : Prop :=
  forall (f : Fn) (arguments : Args) (st : Store W Fn),
    tools_wf (self st) ->
    tools_wf (self (snd (body_of (code f) arguments st))).

(** Every keyword of every policy area. *)
Definition all_keywords : list string := concat (PyDict.values policy_areas).

(** Number of keywords of a list that occur in a text. *)
Definition hits (keywords : list string) (text_lower : string) : Z :=
  Z.of_nat (length (filter (fun kw => PyStr.contains kw text_lower) keywords)).

(** The entry of an area whose keywords have [hits] occurrences. *)
Definition entry_of (text_lower : string) (keywords : list string) : AreaAnalysis :=
  let m := hits keywords text_lower in
  {| mentions := m;
     relevance := if m >? 2 then "high" else if m >? 0 then "medium" else "low" |}.

(** White space between words. *)
Definition is_space (c : ascii) : bool :=
  match N_of_ascii c with
  | 9%N | 10%N | 11%N | 12%N | 13%N | 32%N => true
  | _ => false
  end.

(** The words of a text, separated by white space; [cur] is the word being
    read, in reverse. *)
Fixpoint words_from (cur : list ascii) (s : string) : list string :=
  let flush := match cur with
               | [] => []
               | _ => [string_of_list_ascii (rev cur)]
               end in
  match s with
  | EmptyString => flush
  | String c s' =>
      if is_space c then (flush ++ words_from [] s')%list
      else words_from (c :: cur) s'
  end.

Definition words (s : string) : list string := words_from [] s.

(** A text that says "healthcare" exactly three times and uses no other
    policy keyword as a word. *)
Definition healthcare_thrice_only (text : string) : Prop :=
  let ws := words (PyStr.lower text) in
  count_occ string_dec ws "healthcare" = 3%nat /\
  forall w, In w ws -> In w all_keywords -> w = "healthcare".

(* ================================================================= *)
(** ** Sample handlers and servers *)

Module Fixture.

(** The callables of a small program. *)
Inductive fn : Type :=
| Counting (k : Z)
| CountingAsync (k : Z)
| Failing
| Clearing.

Definition boom : exception := Exception "RuntimeError" "boom" None.

(** One more invocation counted in the environment. *)
Definition bump (st : Store nat fn) : Store nat fn :=
  {| self := self st; env := S (env st); stdout := stdout st |}.

(** Their function objects.  [Counting k] counts its invocations in the
    environment and answers [k]; [CountingAsync k] is the same as a
    coroutine function; [Failing] is invoked and then raises; [Clearing]
    empties the tools dictionary of the server it closes over and then
    raises. *)
Definition code (f : fn) : Handler nat fn :=
  match f with
  | Counting k => Function (fun _ st => (Return (VInt k), bump st))
  | CountingAsync k => CoroutineFunction (fun _ st => (Return (VInt k), bump st))
  | Failing => Function (fun _ st => (Raise boom, bump st))
  | Clearing => Function (fun _ => update_self (set_tools []) ;; raise boom)
  end.

(** A server just constructed, no handler invoked yet. *)
Definition fresh : Store nat fn :=
  {| self := init; env := 0%nat; stdout := [] |}.

(** A server with three tools registered. *)
Definition server : Store nat fn :=
  exec (register_tool "search" "Search functionality" (Counting 1) ;;
        register_tool "external_api_call" "Call external API endpoints"
                      (CountingAsync 2) ;;
        register_tool "broken" "Always fails" Failing)
       fresh.

(** The same server with a fourth tool, whose handler clears the
    registry. *)
Definition server_with_reset : Store nat fn :=
  exec (register_tool "reset" "Drops every tool" Clearing) server.

End Fixture.

(* ================================================================= *)
(** ** Facts about strings *)

Module PyStrFacts.
Import PyStr.

Lemma prefix_nil (s : string) : String.prefix "" s = true.
Proof. destruct s; reflexivity. Qed.

Lemma prefix_trans (a b s : string) :
  String.prefix a b = true -> String.prefix b s = true ->
  String.prefix a s = true.
Proof.
  revert b s; induction a as [|c a IH]; intros b s Hab Hbs.
  - apply prefix_nil.
  - destruct b as [|c' b]; [discriminate|].
    destruct s as [|c'' s]; [discriminate|].
    simpl in *.
    destruct (ascii_dec c c') as [->|]; [|discriminate].
    destruct (ascii_dec c' c'') as [->|]; [|discriminate].
    eauto.
Qed.

(** A text that contains a string contains each of its prefixes. *)
Lemma contains_prefix (a b s : string) :
  String.prefix a b = true -> contains b s = true -> contains a s = true.
Proof.
  intros Hab; induction s as [|c s IH]; cbn [contains]; intros H.
  - apply orb_true_iff in H as [H|H]; [|discriminate].
    rewrite (prefix_trans _ _ _ Hab H); reflexivity.
  - apply orb_true_iff in H as [H|H].
    + rewrite (prefix_trans _ _ _ Hab H); reflexivity.
    + rewrite (IH H); apply orb_true_r.
Qed.

Lemma prefix_app (a s : string) :
  String.prefix a s = true <-> exists post, s = (a ++ post)%string.
Proof.
  revert s; induction a as [|c a IH]; intros s.
  - rewrite prefix_nil; split; [exists s; reflexivity | reflexivity].
  - destruct s as [|c' s]; simpl.
    + split; [discriminate | intros [post H]; discriminate].
    + destruct (ascii_dec c c') as [->|Hne].
      * rewrite IH; split; intros [post H]; exists post.
        -- now rewrite H.
        -- now inversion H.
      * split; [discriminate | intros [post H]; inversion H; congruence].
Qed.

(** [contains] decides occurrence as a contiguous substring. *)
Lemma contains_spec (sub s : string) :
  contains sub s = true <->
  exists pre post, s = (pre ++ sub ++ post)%string.
Proof.
  induction s as [|c s IH]; cbn [contains]; rewrite orb_true_iff.
  - split.
    + intros [H|H]; [|discriminate].
      apply prefix_app in H as [post H]; exists "", post; exact H.
    + intros [pre [post H]]; left; apply prefix_app.
      destruct pre; [exists post; exact H | discriminate].
  - rewrite IH; split.
    + intros [H|[pre [post H]]].
      * apply prefix_app in H as [post H]; exists "", post; exact H.
      * exists (String c pre), post; simpl; now rewrite H.
    + intros [pre [post H]]; destruct pre as [|c' pre]; simpl in H.
      * left; apply prefix_app; exists post; exact H.
      * right; exists pre, post; now inversion H.
Qed.

End PyStrFacts.

(* ================================================================= *)
(** ** Facts about dictionaries *)

Module PyDictFacts.

Section Facts.
Context {V : Type}.
Implicit Types (d : dict V) (k : string) (v : V).

Lemma mem_get k d : PyDict.mem k d = true <-> exists v, PyDict.get k d = Some v.
Proof.
  unfold PyDict.mem; destruct (PyDict.get k d); split; eauto.
  - discriminate.
  - intros [v H]; discriminate.
Qed.

Lemma mem_keys k d : PyDict.mem k d = true <-> In k (PyDict.keys d).
Proof.
  unfold PyDict.mem; induction d as [|[k' v'] d IH]; simpl.
  - split; [discriminate | contradiction].
  - destruct (String.eqb_spec k k') as [->|Hne].
    + split; auto.
    + rewrite IH; split; [auto | intros [H|H]; [congruence | exact H]].
Qed.

Lemma get_set_same k v d : PyDict.get k (PyDict.set k v d) = Some v.
Proof.
  induction d as [|[k' v'] d IH]; simpl.
  - now rewrite String.eqb_refl.
  - destruct (String.eqb_spec k k') as [->|Hne]; simpl.
    + now rewrite String.eqb_refl.
    + apply String.eqb_neq in Hne; now rewrite Hne.
Qed.

Lemma get_set_other k k' v d :
  k <> k' -> PyDict.get k' (PyDict.set k v d) = PyDict.get k' d.
Proof.
  intros Hne; induction d as [|[k0 v0] d IH]; simpl.
  - apply not_eq_sym, String.eqb_neq in Hne; now rewrite Hne.
  - destruct (String.eqb_spec k k0) as [->|Hne0]; simpl.
    + apply not_eq_sym, String.eqb_neq in Hne; now rewrite Hne.
    + now rewrite IH.
Qed.

(** Assignment keeps the position of a key that is present and appends
    a key that is new. *)
Lemma keys_set k v d :
  PyDict.keys (PyDict.set k v d) =
  if PyDict.mem k d then PyDict.keys d else (PyDict.keys d ++ [k])%list.
Proof.
  unfold PyDict.mem; induction d as [|[k' v'] d IH]; simpl; [reflexivity|].
  destruct (String.eqb k k'); simpl; [reflexivity|].
  rewrite IH; now destruct (PyDict.get k d).
Qed.

Lemma set_set k v1 v2 d :
  PyDict.set k v2 (PyDict.set k v1 d) = PyDict.set k v2 d.
Proof.
  induction d as [|[k' v'] d IH]; simpl.
  - now rewrite String.eqb_refl.
  - destruct (String.eqb k k') eqn:E; simpl; rewrite E; [reflexivity|].
    now rewrite IH.
Qed.

Lemma wf_set k v d : PyDict.wf d -> PyDict.wf (PyDict.set k v d).
Proof.
  unfold PyDict.wf; intros Hd; rewrite keys_set.
  destruct (PyDict.mem k d) eqn:E; [exact Hd|].
  apply NoDup_app; repeat split; auto.
  - constructor; [intros [] | constructor].
  - intros x Hx [<-|[]].
    apply mem_keys in Hx; congruence.
Qed.

End Facts.

Lemma get_map {A B} (f : A -> B) (k : string) (d : dict A) :
  PyDict.get k (map (fun '(k, v) => (k, f v)) d) = option_map f (PyDict.get k d).
Proof.
  induction d as [|[k' v] d IH]; simpl; [reflexivity|].
  now destruct (String.eqb k k').
Qed.

Lemma keys_map {A B} (f : A -> B) (d : dict A) :
  PyDict.keys (map (fun '(k, v) => (k, f v)) d) = PyDict.keys d.
Proof. induction d as [|[k v] d IH]; simpl; congruence. Qed.

Lemma values_map {A B} (f : A -> B) (d : dict A) :
  PyDict.values (map (fun '(k, v) => (k, f v)) d) = map f (PyDict.values d).
Proof. induction d as [|[k v] d IH]; simpl; congruence. Qed.

End PyDictFacts.

(* ================================================================= *)
(** ** The registry and its dispatch *)

Section ServerFacts.

Context {W Fn : Type}.
Variable code : Fn -> Handler W Fn.
Implicit Types (st : Store W Fn) (s : MCPServer Fn) (h : Fn)
               (n : string) (args : Args).

(** *** The invariant of the tools dictionary *)

Lemma init_wf : tools_wf (@init Fn).
Proof. split; constructor. Qed.

Lemma register_tool_wf st n d h :
  tools_wf (self st) -> tools_wf (self (exec (register_tool n d h) st)).
Proof.
  intros [Hnd Hnm]; split; cbn.
  - now apply PyDictFacts.wf_set.
  - clear Hnd; induction Hnm as [|[k t] l Hk Hl IH]; cbn.
    + repeat constructor.
    + destruct (String.eqb_spec n k) as [->|Hne]; constructor; auto.
Qed.

Lemma start_tools st hst p : tools (self (exec (start hst p) st)) = tools (self st).
Proof. reflexivity. Qed.

Lemma stop_tools st : tools (self (exec stop st)) = tools (self st).
Proof. reflexivity. Qed.

(** *** Dispatch *)

(** A call of a registered tool is the call of its handler, whichever of
    the two kinds the handler is. *)
Lemma handle_tool_call_registered st n args tool :
  PyDict.get n (tools (self st)) = Some tool ->
  run (handle_tool_call code n args) st = run (call code (handler tool) args) st.
Proof.
  intros Hget.
  unfold run, handle_tool_call, bind, get_self, getitem, PyDict.mem, await.
  rewrite Hget; cbn.
  now destruct (iscoroutinefunction code (handler tool)).
Qed.

Lemma handle_tool_call_unregistered st n args :
  PyDict.mem n (tools (self st)) = false ->
  run (handle_tool_call code n args) st = (Raise (ToolNotFound n), st).
Proof.
  intros Hmem.
  unfold run, handle_tool_call, bind, get_self.
  now rewrite Hmem.
Qed.

(** Behind the gate, the secure call is the plain call. *)
Lemma handle_secure_tool_call_allowed st n args c :
  validate_tool_access n c = true ->
  run (handle_secure_tool_call code n args c) st
  = run (handle_tool_call code n args) st.
Proof.
  intros H; unfold run, handle_secure_tool_call, await; now rewrite H.
Qed.

(** *** The invariant over sessions *)

(** Dispatch keeps the invariant when the handlers do. *)
Lemma handle_tool_call_wf st n args :
  handlers_keep_wf code ->
  tools_wf (self st) -> tools_wf (self (exec (handle_tool_call code n args) st)).
Proof.
  intros Hcode Hst.
  unfold exec; fold (run (handle_tool_call code n args) st).
  destruct (PyDict.get n (tools (self st))) as [tool|] eqn:Hget.
  - rewrite (handle_tool_call_registered _ _ _ _ Hget).
    now apply Hcode.
  - rewrite handle_tool_call_unregistered; [exact Hst|].
    unfold PyDict.mem; now rewrite Hget.
Qed.

Lemma handle_secure_tool_call_wf st n args c :
  handlers_keep_wf code ->
  tools_wf (self st) ->
  tools_wf (self (exec (handle_secure_tool_call code n args c) st)).
Proof.
  intros Hcode Hst; unfold exec, handle_secure_tool_call, await.
  destruct (validate_tool_access n c); cbn; [|exact Hst].
  now apply handle_tool_call_wf.
Qed.

Lemma serve_wf (r : request Fn) st :
  handlers_keep_wf code ->
  tools_wf (self st) -> tools_wf (self (serve code r st)).
Proof.
  intros Hcode H; destruct r; cbn [serve]; try exact H.
  - now apply register_tool_wf.
  - now apply handle_tool_call_wf.
  - now apply handle_secure_tool_call_wf.
Qed.

(** Whatever the clients ask, each tool stays under its own name, once, as
    long as no handler breaks that itself. *)
Lemma session_wf (rs : list (request Fn)) st :
  handlers_keep_wf code ->
  tools_wf (self st) -> tools_wf (self (session code rs st)).
Proof.
  intros Hcode; revert st; induction rs as [|r rs IH]; intros st H; [exact H|].
  apply IH, serve_wf, H; exact Hcode.
Qed.

Lemma session_from_init_wf (rs : list (request Fn)) (w : W) (out : list string) :
  handlers_keep_wf code ->
  tools_wf (self (session code rs {| self := init; env := w; stdout := out |})).
Proof. intros Hcode; apply session_wf; [exact Hcode | apply init_wf]. Qed.

(** *** The credential check *)

Lemma validate_tool_access_spec n (c : option string) :
  validate_tool_access n c = true <-> exists k, c = Some k /\ In k valid_keys.
Proof.
  unfold validate_tool_access; destruct c as [k|]; cbn [truthy negb].
  - destruct k as [|a k].
    + split; [discriminate|].
      intros [k [[= <-] Hin]]; cbn in Hin; intuition discriminate.
    + cbn [negb]; rewrite existsb_exists; split.
      * intros [x [Hin Heq]]; apply String.eqb_eq in Heq; subst x; eauto.
      * intros [k' [[= <-] Hin]]; exists (String a k); split; auto.
        apply String.eqb_refl.
  - split; [discriminate | intros [k [[=] _]]].
Qed.

Lemma validate_tool_access_rejects n (c : option string) :
  (c = None \/ exists k, c = Some k /\ ~ In k valid_keys) ->
  validate_tool_access n c = false.
Proof.
  intros H; apply not_true_is_false; rewrite validate_tool_access_spec.
  intros [k [-> Hin]]; destruct H as [[=]|[k' [[= <-] Hno]]]; auto.
Qed.

(** *** Listing *)

Lemma list_tools_other n l :
  ~ In n (PyDict.keys l) ->
  Forall (fun kv : string * Tool Fn => name (snd kv) = fst kv) l ->
  filter (fun i => String.eqb (info_name i) n)
         (map (fun tool => mkToolInfo (name tool) (description tool))
              (PyDict.values l)) = [].
Proof.
  intros Hn Hl; induction Hl as [|[k t] l Hk Hl IH]; cbn in *; [reflexivity|].
  subst k; destruct (String.eqb_spec (name t) n) as [E|_]; [tauto|].
  apply IH; tauto.
Qed.

Lemma list_tools_set n d h l :
  PyDict.wf l ->
  Forall (fun kv : string * Tool Fn => name (snd kv) = fst kv) l ->
  filter (fun i => String.eqb (info_name i) n)
         (map (fun tool => mkToolInfo (name tool) (description tool))
              (PyDict.values (PyDict.set n (mkTool n d h) l)))
  = [mkToolInfo n d].
Proof.
  unfold PyDict.wf; intros Hnd Hl.
  induction Hl as [|[k t] l Hk Hl IH]; cbn in *.
  - now rewrite String.eqb_refl.
  - inversion Hnd as [|? ? Hnotin Hnd']; subst.
    destruct (String.eqb_spec n (name t)) as [->|Hne]; cbn.
    + rewrite String.eqb_refl; f_equal.
      now apply list_tools_other.
    + destruct (String.eqb_spec (name t) n) as [E|_]; [congruence|].
      now apply IH.
Qed.

End ServerFacts.

(** The sample server satisfies the invariant. *)
Lemma sample_server_wf : tools_wf (self Fixture.server).
Proof.
  split; cbv -[In not]; repeat constructor; simpl; intuition discriminate.
Qed.

(** The sample handlers keep the invariant. *)
Lemma sample_code_keeps_wf : handlers_keep_wf Fixture.code.
Proof.
  intros f args st H; destruct f; cbn; try exact H.
  split; constructor.
Qed.

(* ================================================================= *)
(** ** Properties of the registry, the dispatch and the credential gate *)

(** C1.  A call of a tool name that is not in the tools dictionary raises
    the tool-not-found [ValueError], whatever the arguments; the store,
    and with it the server object and the environment of every handler,
    is left as it was, so no handler ran and nothing succeeded silently. *)
Theorem unknown_tool_not_found {W Fn} (code : Fn -> Handler W Fn)
    (st : Store W Fn) (n : string) (args : Args) :
  PyDict.mem n (tools (self st)) = false ->
  run (handle_tool_call code n args) st = (Raise (ToolNotFound n), st).
Proof. apply handle_tool_call_unregistered. Qed.

Lemma unknown_tool_not_found_witness :
  run (handle_tool_call Fixture.code "no_such_tool" [("query", VStr "x")])
      Fixture.server
  = (Raise (ToolNotFound "no_such_tool"), Fixture.server).
Proof. apply unknown_tool_not_found. reflexivity. Defined.




(** C3.  A credential that is missing or outside the allow-list makes
    [validate_tool_access] answer false and [handle_secure_tool_call] raise
    the permission error with the store untouched, so the handler did not
    run; a credential of the allow-list makes [validate_tool_access] answer
    true and the secure call is the plain call. *)
Theorem secure_call_gate {W Fn} (code : Fn -> Handler W Fn) (st : Store W Fn)
    (n : string) (args : Args) (c : option string) :
  ((c = None \/ exists k, c = Some k /\ ~ In k valid_keys) ->
     validate_tool_access n c = false /\
     run (handle_secure_tool_call code n args c) st = (Raise PermissionDenied, st)) /\
  ((exists k, c = Some k /\ In k valid_keys) ->
     validate_tool_access n c = true /\
     run (handle_secure_tool_call code n args c) st
     = run (handle_tool_call code n args) st).
Proof.
  split; intros H.
  - apply (validate_tool_access_rejects n) in H.
    split; [exact H|].
    unfold run, handle_secure_tool_call; now rewrite H.
  - apply (validate_tool_access_spec n) in H.
    split; [exact H|].
    now apply handle_secure_tool_call_allowed.
Qed.

Lemma secure_call_gate_witness :
  (validate_tool_access "search" (Some "bad-key") = false /\
   run (handle_secure_tool_call Fixture.code "search" [] (Some "bad-key"))
       Fixture.server
     = (Raise PermissionDenied, Fixture.server)) /\
  (validate_tool_access "search" (Some "valid-api-key") = true /\
   run (handle_secure_tool_call Fixture.code "search" [] (Some "valid-api-key"))
       Fixture.server
     = run (handle_tool_call Fixture.code "search" []) Fixture.server).
Proof.
  split.
  - apply (proj1 (secure_call_gate Fixture.code Fixture.server "search" []
                    (Some "bad-key"))).
    right; exists "bad-key"; split; [reflexivity|].
    simpl; intuition discriminate.
  - apply (proj2 (secure_call_gate Fixture.code Fixture.server "search" []
                    (Some "valid-api-key"))).
    exists "valid-api-key"; split; [reflexivity | simpl; auto].
Defined.



(** C8.  [stop] returns, leaves the server not running and without
    clients, and changes nothing else: the tools and resources
    dictionaries, the host and the port are those of before, and no
    handler ran. *)
Theorem stop_frame {W Fn} (st : Store W Fn) :
  returns stop st /\
  is_running (self (exec stop st)) = false /\
  clients (self (exec stop st)) = [] /\
  tools (self (exec stop st)) = tools (self st) /\
  resources (self (exec stop st)) = resources (self st) /\
  host (self (exec stop st)) = host (self st) /\
  port (self (exec stop st)) = port (self st) /\
  env (exec stop st) = env st.
Proof.
  repeat split. exists tt; reflexivity.
Qed.

(** C9.  From any state, [start("localhost", 8080)] then [stop()] leaves
    the server not running; a following [start("host2", 9090)] leaves it
    running with exactly that host and port.  A second [start] never
    raises and only overwrites what the first one stored; with the same
    address it changes nothing. *)
Theorem start_stop_start {W Fn} (st : Store W Fn) :
  let st1 := exec (start "localhost" 8080 ;; stop) st in
  let st2 := exec (start "host2" 9090) st1 in
  returns (start "localhost" 8080 ;; stop) st /\
  is_running (self st1) = false /\
  returns (start "host2" 9090) st1 /\
  is_running (self st2) = true /\
  host (self st2) = "host2" /\
  port (self st2) = 9090 /\
  (forall h p h' p',
     returns (start h p ;; start h' p') st /\
     self (exec (start h p ;; start h' p') st) = self (exec (start h' p') st)) /\
  (forall h p,
     self (exec (start h p ;; start h p) st) = self (exec (start h p) st)).
Proof.
  cbv zeta; repeat split; try (exists tt; reflexivity).
Qed.

(** C10.  The answer of [validate_tool_access] does not depend on the tool
    name.  A credential of the allow-list opens the secure call for every
    name: the secure call is then the plain call, which for a name that is
    not registered raises the tool-not-found error. *)
Theorem access_independent_of_tool {W Fn} (code : Fn -> Handler W Fn)
    (c : option string) (n1 n2 : string) :
  validate_tool_access n1 c = validate_tool_access n2 c /\
  (forall k, c = Some k -> In k valid_keys ->
   forall (st : Store W Fn) (n : string) (args : Args),
     validate_tool_access n c = true /\
     run (handle_secure_tool_call code n args c) st
       = run (handle_tool_call code n args) st /\
     (PyDict.mem n (tools (self st)) = false ->
      run (handle_secure_tool_call code n args c) st = (Raise (ToolNotFound n), st))).
Proof.
  split; [reflexivity|].
  intros k Hc Hin st n args.
  assert (Hok : validate_tool_access n c = true)
    by (apply validate_tool_access_spec; eauto).
  repeat split; auto using handle_secure_tool_call_allowed.
  intros Hmem; rewrite (handle_secure_tool_call_allowed _ _ _ _ _ Hok).
  now apply handle_tool_call_unregistered.
Qed.

Lemma access_independent_of_tool_witness :
  validate_tool_access "search" (Some "admin-key")
    = validate_tool_access "no_such_tool" (Some "admin-key") /\
  validate_tool_access "no_such_tool" (Some "admin-key") = true /\
  run (handle_secure_tool_call Fixture.code "no_such_tool" [] (Some "admin-key"))
      Fixture.server
    = (Raise (ToolNotFound "no_such_tool"), Fixture.server).
Proof.
  destruct (access_independent_of_tool Fixture.code (Some "admin-key")
              "search" "no_such_tool") as [Hsame Hopen].
  split; [exact Hsame|].
  destruct (Hopen "admin-key" eq_refl (or_intror (or_introl eq_refl))
              Fixture.server "no_such_tool" []) as [Hok [_ Hnf]].
  split; [exact Hok | apply Hnf; reflexivity].
Defined.

(* ================================================================= *)
(** ** The default tools *)

Section ToolFacts.

Lemma fold_add_ones {A} (l : list A) (acc : Z) :
  fold_left Z.add (map (fun _ => 1) l) acc = acc + Z.of_nat (length l).
Proof.
  revert acc; induction l as [|x l IH]; intros acc; simpl length; simpl map.
  - simpl; lia.
  - cbn [fold_left]; rewrite IH; lia.
Qed.

(** Summing a one for each keyword found counts the keywords found. *)
Lemma py_sum_ones {A} (l : list A) :
  py_sum (map (fun _ => 1) l) = Z.of_nat (length l).
Proof. unfold py_sum; now rewrite fold_add_ones. Qed.

Variable text : string.

(** The loop fills the dictionary area by area, in the order of the
    table. *)
Lemma analysis_entries :
  analysis (analyze_political_content text)
  = map (fun '(area, keywords) => (area, entry_of (PyStr.lower text) keywords))
        policy_areas.
Proof.
  cbv beta iota zeta delta
    [analyze_political_content analysis policy_areas PyDict.items fold_left].
  rewrite !py_sum_ones.
  reflexivity.
Qed.

Lemma total_policy_mentions_eq :
  total_policy_mentions (analyze_political_content text)
  = py_sum (map mentions (PyDict.values (analysis (analyze_political_content text)))).
Proof. reflexivity. Qed.

Lemma primary_topics_eq :
  primary_topics (analyze_political_content text)
  = map fst (filter (fun '(area, data) => String.eqb (relevance data) "high")
                    (PyDict.items (analysis (analyze_political_content text)))).
Proof. reflexivity. Qed.

End ToolFacts.

(* ================================================================= *)
(** ** Properties of the default tools *)

(** C6.  For every text the report holds one entry per policy area, in the
    order of the table.  The entry's mention count is the number of the
    area's keywords that occur in the lower-cased text; its relevance is
    "high" above two mentions, "medium" above none, "low" otherwise.  The
    total is the sum of the counts over the areas, and the primary topics
    are exactly the areas whose relevance is "high", in the order of the
    table. *)
Theorem analysis_classifies (text : string) :
  let r := analyze_political_content text in
  let text_lower := PyStr.lower text in
  PyDict.keys (analysis r) = PyDict.keys policy_areas /\
  (forall area keywords,
     PyDict.get area policy_areas = Some keywords ->
     exists a,
       PyDict.get area (analysis r) = Some a /\
       mentions a = hits keywords text_lower /\
       (mentions a > 2 -> relevance a = "high") /\
       (mentions a <= 2 -> mentions a > 0 -> relevance a = "medium") /\
       (mentions a <= 0 -> relevance a = "low")) /\
  total_policy_mentions r
    = py_sum (map (fun keywords => hits keywords text_lower)
                  (PyDict.values policy_areas)) /\
  primary_topics r
    = filter (fun area =>
                match PyDict.get area (analysis r) with
                | Some a => String.eqb (relevance a) "high"
                | None => false
                end)
             (PyDict.keys policy_areas).
Proof.
  intros r text_lower; subst r.
  rewrite primary_topics_eq, total_policy_mentions_eq, analysis_entries.
  fold text_lower.
  split; [|split; [|split]].
  - apply PyDictFacts.keys_map.
  - intros area keywords Hget.
    exists (entry_of text_lower keywords); split.
    + rewrite (PyDictFacts.get_map (entry_of text_lower)), Hget; reflexivity.
    + unfold entry_of; cbn [mentions relevance].
      destruct (Z.gtb_spec (hits keywords text_lower) 2);
        destruct (Z.gtb_spec (hits keywords text_lower) 0);
        (split; [reflexivity|]); repeat split; intros; try reflexivity; lia.
  - rewrite (PyDictFacts.values_map (entry_of text_lower)), map_map. reflexivity.
  - generalize (entry_of text_lower); intros e.
    unfold policy_areas; simpl.
    repeat match goal with
      | |- context [String.eqb (relevance ?x) "high"] =>
          destruct (String.eqb (relevance x) "high")
      end; reflexivity.
Qed.

Lemma analysis_classifies_witness :
  exists a,
    PyDict.get "healthcare"
      (analysis (analyze_political_content "Health, MEDICAL cover and insurance"))
      = Some a /\
    mentions a = 3 /\ relevance a = "high".
Proof.
  destruct (analysis_classifies "Health, MEDICAL cover and insurance")
    as [_ [Hentries _]].
  destruct (Hentries "healthcare" ["healthcare"; "health"; "medical"; "insurance"]
              eq_refl) as [a [Hget [Hm [Hhigh _]]]].
  exists a; split; [exact Hget|].
  split; [rewrite Hm; reflexivity | apply Hhigh; rewrite Hm; reflexivity].
Defined.

(** C5, as the specification words it, fails: a text that is the word
    "healthcare" three times and nothing else gets two mentions for
    healthcare, since a mention is a keyword that occurs and "health" occurs
    inside "healthcare"; its relevance is "medium" and there is no primary
    topic. *)
Lemma healthcare_thrice_counterexample :
  let r := analyze_political_content "healthcare healthcare healthcare" in
  healthcare_thrice_only "healthcare healthcare healthcare" /\
  PyDict.get "healthcare" (analysis r)
    = Some {| mentions := 2; relevance := "medium" |} /\
  primary_topics r = [] /\
  ~ (exists a, PyDict.get "healthcare" (analysis r) = Some a /\
               mentions a = 3 /\ relevance a = "high" /\
               In "healthcare" (primary_topics r)).
Proof.
  cbv zeta; split; [|split; [|split]].
  - split; [reflexivity|].
    intros w Hw _; cbv in Hw; intuition.
  - reflexivity.
  - reflexivity.
  - intros [a [Hget [Hm _]]].
    vm_compute in Hget; injection Hget as <-; discriminate Hm.
Qed.

(** C5, as the code has it.  For every text whose lower case contains
    "healthcare", however often, and contains no keyword other than
    "healthcare" and "health", the healthcare area has two mentions and
    relevance "medium", no area is a primary topic, the total is two, and
    every other area has no mention and relevance "low". *)
Theorem healthcare_only_analysis (text : string) :
  let text_lower := PyStr.lower text in
  let r := analyze_political_content text in
  PyStr.contains "healthcare" text_lower = true ->
  (forall kw, In kw all_keywords -> kw <> "healthcare" -> kw <> "health" ->
              PyStr.contains kw text_lower = false) ->
  PyDict.get "healthcare" (analysis r)
    = Some {| mentions := 2; relevance := "medium" |} /\
  primary_topics r = [] /\
  total_policy_mentions r = 2 /\
  (forall area, In area (PyDict.keys policy_areas) -> area <> "healthcare" ->
     PyDict.get area (analysis r) = Some {| mentions := 0; relevance := "low" |}).
Proof.
  intros text_lower r Hhc Hno; subst r.
  rewrite primary_topics_eq, total_policy_mentions_eq, analysis_entries.
  fold text_lower.
  assert (Hh : PyStr.contains "health" text_lower = true)
    by (apply (PyStrFacts.contains_prefix _ "healthcare"); [reflexivity | exact Hhc]).
  assert (Hentries :
    map (fun '(area, keywords) => (area, entry_of text_lower keywords)) policy_areas
    = [ ("healthcare", {| mentions := 2; relevance := "medium" |});
        ("economy", {| mentions := 0; relevance := "low" |});
        ("environment", {| mentions := 0; relevance := "low" |});
        ("education", {| mentions := 0; relevance := "low" |}) ]).
  { unfold policy_areas, entry_of, hits; cbn [map filter].
    rewrite Hhc, Hh.
    rewrite !Hno by (first [ discriminate | unfold all_keywords; simpl; tauto ]).
    reflexivity. }
  rewrite Hentries; clear Hentries.
  split; [reflexivity|]. split; [reflexivity|]. split; [reflexivity|].
  intros area Hin Hne; simpl in Hin.
  destruct Hin as [<-|[<-|[<-|[<-|[]]]]]; first [reflexivity | congruence].
Qed.

Lemma healthcare_only_analysis_witness :
  let r := analyze_political_content "Healthcare, healthcare; HEALTHCARE!" in
  PyDict.get "healthcare" (analysis r)
    = Some {| mentions := 2; relevance := "medium" |} /\
  primary_topics r = [] /\
  total_policy_mentions r = 2 /\
  (forall area, In area (PyDict.keys policy_areas) -> area <> "healthcare" ->
     PyDict.get area (analysis r) = Some {| mentions := 0; relevance := "low" |}).
Proof.
  apply (healthcare_only_analysis "Healthcare, healthcare; HEALTHCARE!").
  - reflexivity.
  - intros kw Hin H1 H2; unfold all_keywords in Hin; simpl in Hin.
    repeat (destruct Hin as [<-|Hin]; [first [reflexivity | congruence]|]).
    contradiction.
Defined.

(** C7.  For every query, type "sql" and type "neo4j" each return a
    result with a count of two and the type given; every other type raises
    the unsupported-database-type [ValueError]. *)
Theorem query_database_by_type (q : string) :
  (exists r, query_database q "sql" = Return r /\
             count r = 2 /\ database_type r = "sql") /\
  (exists r, query_database q "neo4j" = Return r /\
             count r = 2 /\ database_type r = "neo4j") /\
  (forall dt, dt <> "sql" -> dt <> "neo4j" ->
     query_database q dt = Raise (UnsupportedDatabaseType dt)).
Proof.
  split; [|split].
  - eexists; repeat split.
  - eexists; repeat split.
  - intros dt Hsql Hneo; unfold query_database.
    apply String.eqb_neq in Hsql, Hneo; now rewrite Hsql, Hneo.
Qed.

Lemma query_database_by_type_witness :
  query_database "db.documents.find()" "mongo"
  = Raise (UnsupportedDatabaseType "mongo").
Proof.
  apply (proj2 (proj2 (query_database_by_type "db.documents.find()")));
    discriminate.
Defined.
